(** * Market Mind: the request/response cycle of [app.py]

    The program is one Streamlit script.  Its top level reads the access
    credential from the environment, [load_sentiment_pipeline] builds the
    FinBERT pipeline behind [@st.cache_resource], and [main] validates the
    text of the text area, runs the pipeline on it and renders the outcome.

    The Model Provider (transformers), the environment file reader (dotenv)
    and the one Streamlit call that validates its argument ([st.progress])
    are outside the repository: they are the fields of [World], and every
    theorem is stated for an arbitrary world.  The script itself is embedded
    as a state-and-exception monad over the process state. *)

From Stdlib Require Import PrimFloat.
From stdpp Require Import gmap strings list.

Open Scope string_scope.
Open Scope list_scope.

(** ** Python values used by the script *)

Module Py.

(** A Python [str] is a sequence of Unicode code points. *)
Definition str := list N.

(** The code points of a literal of the source. *)
Definition codepoints (s : string) : str :=
  map Ascii.N_of_ascii (String.list_ascii_of_string s).

(** [str.isspace] on one code point: the characters CPython lists as
    whitespace. *)
Definition isspace (c : N) : bool :=
  ((9 <=? c) && (c <=? 13) || (28 <=? c) && (c <=? 32)
   || (c =? 133) || (c =? 160) || (c =? 5760)
   || (8192 <=? c) && (c <=? 8202)
   || (c =? 8232) || (c =? 8233) || (c =? 8239) || (c =? 8287)
   || (c =? 12288))%N.

Fixpoint lstrip (s : str) : str :=
  match s with
  | c :: s' => if isspace c then lstrip s' else s
  | [] => []
  end.

Definition rstrip (s : str) : str := rev (lstrip (rev s)).

(** [s.strip()] *)
Definition strip (s : str) : str := rstrip (lstrip s).

(** comparison of [s] with the empty text *)
Definition is_empty (s : str) : bool :=
  match s with [] => true | _ :: _ => false end.

(** An instance of a subclass of [Exception]: its class name and the text
    [str(e)] that an f-string interpolates. *)
Record Exc := mkExc { exc_class : string; exc_str : string }.

(** The outcome of evaluating a Python expression. *)
Inductive res (A : Type) : Type :=
| Ok (a : A)
| Raise (e : Exc).
Arguments Ok {A} a.
Arguments Raise {A} e.

Definition returned {A} (r : res A) : bool :=
  match r with Ok _ => true | Raise _ => false end.

(** [xs[0]] on a list *)
Definition index0 {A} (xs : list A) : res A :=
  match xs with
  | x :: _ => Ok x
  | [] => Raise (mkExc "IndexError" "list index out of range")
  end.

End Py.

Import Py.


(** ** The collaborators outside the repository *)

(** One entry of the list a text-classification pipeline returns:
    [{'label': ..., 'score': ...}]. *)
Record Prediction := mkPrediction { label : string; score : float }.

(** What the script calls and does not define.  [call h text] is
    [h(text)] for a pipeline handle [h]; [progress_check v] is the argument
    check of [st.progress(v)], [None] when the bar is drawn. *)
Record World := mkWorld {
  Tokenizer : Type;
  Model : Type;
  Handle : Type;
  load_dotenv : gmap string string -> gmap string string;
  AutoTokenizer_from_pretrained : string -> option string -> res Tokenizer;
  AutoModelForSequenceClassification_from_pretrained :
    string -> option string -> res Model;
  pipeline : string -> Model -> Tokenizer -> res Handle;
  call : Handle -> str -> res (list Prediction);
  progress_check : float -> option Exc
}.

(** Calls that leave the script, in the order they are made; [ok] tells
    whether the call returned (rather than raised). *)
Inductive Event : Type :=
| EvLoadDotenv
| EvGetenv (name : string) (value : option string)
| EvTokenizer (model_name : string) (token : option string) (ok : bool)
| EvModel (model_name : string) (token : option string) (ok : bool)
| EvPipeline (task : string) (ok : bool)
| EvCall (text : str) (ok : bool).

(** Streamlit calls that draw on the page.  [ECard l s] is the
    [st.markdown] of lines 107-116, whose template is filled with
    [l.lower()], [l.upper()] and [s] formatted as a percentage. *)
Inductive Element : Type :=
| EPageConfig (page_title layout : string)
| EStyle
| ETitle (s : string)
| ESubheader (s : string)
| EText (s : string)
| ETextArea (caption placeholder : string) (height : Z)
| EButton (caption : string)
| EWarning (s : string)
| ESpinner (s : string)
| EMarkdown (s : string)
| ECard (l : string) (s : float)
| EProgress (v : float)
| EError (s : string)
| EInfo (s : string)
| ECaption (s : string)
| ESidebar (e : Element).

(** What the widgets return on one run of the script: the content of the
    text area and whether the button was clicked. *)
Record Submission := mkSubmission {
  user_input : str;
  analyze_button : bool
}.

(** ** The script *)

Section Script.

Context (W : World).

(** The state of the process: the store of [@st.cache_resource] for
    [load_sentiment_pipeline], [os.environ], the module global [hf_token],
    and the two logs of what the script did. *)
Record State := mkState {
  cache : option (Handle W);
  environ : gmap string string;
  hf_token : option string;
  trace : list Event;
  page : list Element
}.

Definition set_cache (h : Handle W) (st : State) : State :=
  mkState (Some h) (environ st) (hf_token st) (trace st) (page st).
Definition set_environ (env : gmap string string) (st : State) : State :=
  mkState (cache st) env (hf_token st) (trace st) (page st).
Definition set_hf_token (t : option string) (st : State) : State :=
  mkState (cache st) (environ st) t (trace st) (page st).
Definition log (ev : Event) (st : State) : State :=
  mkState (cache st) (environ st) (hf_token st) (trace st ++ [ev]) (page st).
Definition with_page (pg : list Element) (st : State) : State :=
  mkState (cache st) (environ st) (hf_token st) (trace st) pg.
Definition draw (el : Element) (st : State) : State :=
  with_page (page st ++ [el]) st.
Definition clear_page (st : State) : State := with_page [] st.

(** Statements run in a state and either return or raise; what they did
    before raising stays done. *)
Definition M (A : Type) : Type := State -> res A * State.

Definition ret {A} (a : A) : M A := fun st => (Ok a, st).

Definition bind {A B} (c : M A) (k : A -> M B) : M B :=
  fun st =>
    match c st with
    | (Ok a, st') => k a st'
    | (Raise e, st') => (Raise e, st')
    end.

(** [try: c  except Exception as e: handler e] *)
Definition try_except {A} (c : M A) (handler : Exc -> M A) : M A :=
  fun st =>
    match c st with
    | (Ok a, st') => (Ok a, st')
    | (Raise e, st') => handler e st'
    end.

Notation "x <- c ;; k" := (bind c (fun x => k))
  (at level 100, c at level 99, k at level 200, right associativity).
Notation "c ;; k" := (bind c (fun _ => k))
  (at level 100, k at level 200, right associativity).

(** A drawing call: it adds an element and returns. *)
Definition st_draw (el : Element) : M unit := fun st => (Ok tt, draw el st).

(** A call into the Model Provider: logged with its outcome. *)
Definition extern {A} (ev : bool -> Event) (r : res A) : M A :=
  fun st => (r, log (ev (returned r)) st).

(** [st.progress(v)] *)
Definition st_progress (v : float) : M unit :=
  fun st =>
    match progress_check W v with
    | None => (Ok tt, draw (EProgress v) st)
    | Some e => (Raise e, st)
    end.

(** Lines 8-9: [load_dotenv()] and [hf_token = os.getenv(...)]. *)
Definition read_credential : M unit :=
  fun st =>
    let st1 := log EvLoadDotenv (set_environ (load_dotenv W (environ st)) st) in
    let v := environ st1 !! "HUGGINGFACE_TOKEN" in
    (Ok tt, set_hf_token v (log (EvGetenv "HUGGINGFACE_TOKEN" v) st1)).

(** Reading the module global [hf_token]. *)
Definition read_hf_token : M (option string) :=
  fun st => (Ok (hf_token st), st).

(** The body of [load_sentiment_pipeline], lines 67-70. *)
Definition load_sentiment_pipeline_body : M (Handle W) :=
  let model_name := "ProsusAI/finbert" in
  token <- read_hf_token ;;
  tokenizer <- extern (EvTokenizer model_name token)
                 (AutoTokenizer_from_pretrained W model_name token) ;;
  token <- read_hf_token ;;
  model <- extern (EvModel model_name token)
             (AutoModelForSequenceClassification_from_pretrained W
                model_name token) ;;
  extern (EvPipeline "sentiment-analysis")
    (pipeline W "sentiment-analysis" model tokenizer).

(** [@st.cache_resource]: a stored handle is returned as it is; otherwise
    the body runs and its handle is stored when it returns.  A body that
    raises stores nothing. *)
Definition load_sentiment_pipeline : M (Handle W) :=
  fun st =>
    match cache st with
    | Some h => (Ok h, st)
    | None =>
        match load_sentiment_pipeline_body st with
        | (Ok h, st') => (Ok h, set_cache h st')
        | (Raise e, st') => (Raise e, st')
        end
    end.

(** Lines 94-98, the analyze operation: obtain the handle, run it on the
    text, take entry 0 of its output. *)
Definition analyze (text : str) : M Prediction :=
  sentiment_pipeline <- load_sentiment_pipeline ;;
  out <- extern (EvCall text) (call W sentiment_pipeline text) ;;
  fun st => (index0 out, st).

(** Lines 103-119: heading, result card, progress bar. *)
Definition render_result (result : Prediction) : M unit :=
  let label := label result in
  let score := score result in
  st_draw (EMarkdown "### Analysis Result") ;;
  st_draw (ECard label score) ;;
  st_progress score.

(** Lines 88-122. *)
Definition on_submit (sub : Submission) : M unit :=
  if analyze_button sub then
    if is_empty (strip (user_input sub)) then
      st_draw (EWarning "Please enter some text to analyze.")
    else
      st_draw (ESpinner "Analyzing market sentiment...") ;;
      try_except
        (result <- analyze (user_input sub) ;; render_result result)
        (fun e => st_draw
           (EError ("An error occurred during analysis: " +:+ exc_str e)))
  else ret tt.

Definition header : list Element :=
  [ ETitle "Market Mind";
    ESubheader "Next-Gen Financial Sentiment Analysis";
    EText "Extract powerful insights from financial news, reports, and market chatter using the state-of-the-art **FinBERT** model.";
    ETextArea "Enter financial text to analyze:"
      "e.g., Apple stock surges as quarterly earnings beat estimates despite supply chain concerns..."
      200;
    EButton "Analyze Market Sentiment" ].

Definition sidebar : list Element :=
  [ ESidebar (ETitle "About Market Mind");
    ESidebar (EInfo "Market Mind uses **FinBERT**, a BERT model pre-trained on a large financial corpus and fine-tuned for financial sentiment analysis. It is specifically designed to understand the nuances of financial language.");
    ESidebar (EText "---");
    ESidebar (ECaption "Built with Streamlit & Hugging Face") ].

Fixpoint draw_all (els : list Element) : M unit :=
  match els with
  | [] => ret tt
  | el :: els' => st_draw el ;; draw_all els'
  end.

(** [main()], lines 72-133. *)
Definition main (sub : Submission) : M unit :=
  draw_all header ;;
  on_submit sub ;;
  draw_all sidebar.

(** One run of the script from its first line. *)
Definition script (sub : Submission) : M unit :=
  read_credential ;;
  st_draw
    (EPageConfig "Market Mind | Financial Sentiment Analysis" "centered") ;;
  st_draw EStyle ;;
  main sub.

(** Streamlit runs the script again on every interaction, on a fresh page
    and the same process state. *)
Definition rerun (st : State) (sub : Submission) : State :=
  snd (script sub (clear_page st)).

Definition session (st : State) (subs : list Submission) : State :=
  fold_left rerun subs st.

(** The process before the first run. *)
Definition boot (env : gmap string string) : State :=
  mkState None env None [] [].

End Script.

Arguments cache {W} _.
Arguments environ {W} _.
Arguments hf_token {W} _.
Arguments trace {W} _.
Arguments page {W} _.
Arguments with_page {W} _ _.
Arguments clear_page {W} _.
Arguments draw {W} _ _.
Arguments log {W} _ _.
Arguments set_cache {W} _ _.
Arguments set_environ {W} _ _.
Arguments set_hf_token {W} _ _.

(** ** What can be observed of a run *)

Definition is_warning (el : Element) : bool :=
  match el with EWarning _ => true | _ => false end.
Definition is_card (el : Element) : bool :=
  match el with ECard _ _ => true | _ => false end.
Definition is_progress (el : Element) : bool :=
  match el with EProgress _ => true | _ => false end.
Definition is_error (el : Element) : bool :=
  match el with EError _ => true | _ => false end.

(** Which of warning, result card, progress bar and error message a page
    holds. *)
Definition outcome (pg : list Element) : bool * bool * bool * bool :=
  (existsb is_warning pg, existsb is_card pg,
   existsb is_progress pg, existsb is_error pg).

(** A [pipeline(...)] call that returned a handle. *)
Definition is_construction (ev : Event) : bool :=
  match ev with EvPipeline _ ok => ok | _ => false end.

Definition constructions (tr : list Event) : nat :=
  length (filter (fun ev => is_construction ev = true) tr).

(** A call that loads or builds a part of the pipeline. *)
Definition is_load_call (ev : Event) : bool :=
  match ev with
  | EvTokenizer _ _ _ | EvModel _ _ _ | EvPipeline _ _ => true
  | EvLoadDotenv | EvGetenv _ _ | EvCall _ _ => false
  end.

Definition load_calls (tr : list Event) : nat :=
  length (filter (fun ev => is_load_call ev = true) tr).

Definition is_getenv (ev : Event) : bool :=
  match ev with EvGetenv _ _ => true | _ => false end.

(** The labels and the score range of the spec's AnalysisResult. *)
Definition is_sentiment (l : string) : bool :=
  String.eqb l "positive" || String.eqb l "negative" || String.eqb l "neutral".

Definition in_unit_interval (v : float) : bool :=
  ((0 <=? v) && (v <=? 1))%float.

Definition well_formed (r : Prediction) : bool :=
  is_sentiment (label r) && in_unit_interval (score r).

(** A submission that passes the check of line 89. *)
Definition valid (sub : Submission) : bool :=
  analyze_button sub && negb (is_empty (strip (user_input sub))).

(** The elements the [try] statement of lines 93-122 leaves on the page,
    by the outcome [r] of lines 94-98. *)
Definition drawn_for (W : World) (r : res Prediction) : list Element :=
  match r with
  | Raise e => [EError ("An error occurred during analysis: " +:+ exc_str e)]
  | Ok p =>
      [EMarkdown "### Analysis Result"; ECard (label p) (score p)] ++
      match progress_check W (score p) with
      | None => [EProgress (score p)]
      | Some e =>
          [EError ("An error occurred during analysis: " +:+ exc_str e)]
      end
  end.

(** The elements lines 88-122 draw for a submission. *)
Definition submitted_elements (W : World) (sub : Submission)
    (r : res Prediction) : list Element :=
  if analyze_button sub then
    if is_empty (strip (user_input sub)) then
      [EWarning "Please enter some text to analyze."]
    else ESpinner "Analyzing market sentiment..." :: drawn_for W r
  else [].

(** The handle store agrees with the log: a handle is stored exactly when
    one [pipeline(...)] call has returned. *)
Definition store_consistent {W : World} (st : State W) : Prop :=
  constructions (trace st) = match cache st with Some _ => 1 | None => 0 end.

(** A statement that neither reads nor draws on the page. *)
Definition page_blind {W : World} {A} (c : M W A) : Prop :=
  forall pg st, c (with_page pg st) = (fst (c st), with_page pg (snd (c st))).

(** ** Sample worlds and inputs *)

(** The range check of [st.progress] on a float. *)
Definition streamlit_progress_check (v : float) : option Exc :=
  if in_unit_interval v then None
  else Some (mkExc "StreamlitAPIException"
               "Progress Value has invalid value [0.0, 1.0]").

(** A provider that loads with the outcome [tok] for the tokenizer and
    classifies by [classify]; handles carry no data. *)
Definition sample_world (tok : res unit)
    (classify : str -> res (list Prediction)) : World :=
  mkWorld unit unit unit (fun env => env)
    (fun _ _ => tok) (fun _ _ => Ok tt) (fun _ _ _ => Ok tt)
    (fun _ text => classify text) streamlit_progress_check.

Definition finbert_like : World :=
  sample_world (Ok tt)
    (fun _ => Ok [mkPrediction "positive" 0.875%float;
                  mkPrediction "neutral" 0.0625%float;
                  mkPrediction "negative" 0.0625%float]).

Definition offline : World :=
  sample_world (Raise (mkExc "OSError" "cannot reach the model hub"))
    (fun _ => Ok [mkPrediction "positive" 0.875%float]).

Definition faulty : World :=
  sample_world (Ok tt)
    (fun _ => Raise (mkExc "RuntimeError" "out of memory")).

Definition unlabelled : World :=
  sample_world (Ok tt) (fun _ => Ok [mkPrediction "LABEL_0" 0.875%float]).

Definition overconfident : World :=
  sample_world (Ok tt) (fun _ => Ok [mkPrediction "positive" 1.5%float]).

Definition apple : str :=
  codepoints "Apple stock surges as quarterly earnings beat estimates".

Definition blanks : str := [32; 9; 10; 160; 12288]%N.

Definition ask (text : str) : Submission := mkSubmission text true.

(** ** The card's colour class and the style sheet *)






(** ** Counting in the log *)

Definition count_events (p : Event -> bool) (tr : list Event) : nat :=
  length (List.filter p tr).

Definition is_call (ev : Event) : bool :=
  match ev with EvCall _ _ => true | _ => false end.

(** Calls of the pipeline handle, and reads of the environment. *)
Definition inferences (tr : list Event) : nat := count_events is_call tr.
Definition getenvs (tr : list Event) : nat := count_events is_getenv tr.

(** ** More sample worlds and inputs *)

(** A pipeline that returns the empty list. *)
Definition silent : World := sample_world (Ok tt) (fun _ => Ok []).

(** The tokenizer loads, the model does not. *)
Definition model_missing : World :=
  mkWorld unit unit unit (fun env => env)
    (fun _ _ => Ok tt)
    (fun _ _ => Raise (mkExc "OSError" "no file named pytorch_model.bin"))
    (fun _ _ _ => Ok tt)
    (fun _ _ => Ok [mkPrediction "positive" 0.875%float])
    streamlit_progress_check.

(** An environment file that sets the token where the environment has
    none. *)
Definition with_env_file : World :=
  mkWorld unit unit unit
    (fun env => env ∪ {[ "HUGGINGFACE_TOKEN" := "hf_sample" ]})
    (fun _ _ => Ok tt) (fun _ _ => Ok tt) (fun _ _ _ => Ok tt)
    (fun _ _ => Ok [mkPrediction "positive" 0.875%float])
    streamlit_progress_check.

(** The text area filled and the button not clicked. *)
Definition typed (text : str) : Submission := mkSubmission text false.

(** ** Facts about [strip] *)

Lemma lstrip_nil_iff (s : str) : lstrip s = [] <-> forallb isspace s = true.
Proof.
  induction s as [|c s IH]; simpl; [tauto|].
  destruct (isspace c); simpl; [exact IH|].
  split; discriminate.
Qed.

Lemma lstrip_head (s : str) :
  match lstrip s with [] => True | c :: _ => isspace c = false end.
Proof.
  induction s as [|c s IH]; simpl; [exact I|].
  destruct (isspace c) eqn:E; [exact IH | exact E].
Qed.

Lemma forallb_isspace_rev (s : str) :
  forallb isspace (rev s) = forallb isspace s.
Proof.
  induction s as [|c s IH]; simpl; [reflexivity|].
  rewrite forallb_app, IH. simpl. rewrite andb_true_r. apply andb_comm.
Qed.

Lemma rstrip_nil_iff (s : str) : rstrip s = [] <-> forallb isspace s = true.
Proof.
  unfold rstrip. rewrite <- forallb_isspace_rev, <- lstrip_nil_iff.
  split; intros H.
  - apply (f_equal (@rev N)) in H. rewrite rev_involutive in H. exact H.
  - rewrite H. reflexivity.
Qed.

(** [s.strip() == ""] holds exactly for the empty text and the texts made of
    whitespace only. *)
Lemma strip_empty_iff (s : str) :
  is_empty (strip s) = true <-> forallb isspace s = true.
Proof.
  assert (Hs : is_empty (strip s) = true <-> strip s = []).
  { destruct (strip s); simpl; split; congruence. }
  rewrite Hs. unfold strip. rewrite rstrip_nil_iff. split; intros H.
  - pose proof (lstrip_head s) as Hh. apply lstrip_nil_iff.
    destruct (lstrip s) as [|c l]; [reflexivity|].
    simpl in H. rewrite Hh in H. discriminate.
  - apply lstrip_nil_iff in H. rewrite H. reflexivity.
Qed.

Example strip_padded :
  strip (codepoints "  rates up  ") = codepoints "rates up".
Proof. reflexivity. Qed.

Example strip_blanks : strip blanks = [].
Proof. reflexivity. Qed.

Example strip_apple : is_empty (strip apple) = false.
Proof. reflexivity. Qed.

(** ** The statements of the script, one by one *)

Section Facts.

Context (W : World).
Implicit Types (st : State W) (sub : Submission) (text : str).

Lemma with_page_id st : with_page (page st) st = st.
Proof. destruct st; reflexivity. Qed.

Lemma draw_all_spec (els : list Element) st :
  draw_all W els st = (Ok tt, with_page (page st ++ els) st).
Proof.
  revert st. induction els as [|el els IH]; intros st; simpl.
  - unfold ret. rewrite app_nil_r, with_page_id. reflexivity.
  - unfold bind, st_draw. rewrite IH. unfold draw, with_page. simpl.
    rewrite <- app_assoc. reflexivity.
Qed.

Lemma page_blind_page {A} (c : M W A) st :
  page_blind c -> page (snd (c st)) = page st.
Proof.
  intros Hc. pose proof (Hc (page st) st) as H.
  rewrite with_page_id in H. rewrite H at 1. reflexivity.
Qed.

Lemma page_blind_bind {A B} (c : M W A) (k : A -> M W B) :
  page_blind c -> (forall a, page_blind (k a)) -> page_blind (bind W c k).
Proof.
  intros Hc Hk pg st. unfold bind. rewrite Hc.
  destruct (c st) as [[a|e] st1]; simpl; [apply Hk | reflexivity].
Qed.

Lemma page_blind_extern {A} (ev : bool -> Event) (r : res A) :
  page_blind (extern W ev r).
Proof. intros pg st. reflexivity. Qed.

Lemma page_blind_body : page_blind (load_sentiment_pipeline_body W).
Proof.
  intros pg st.
  unfold load_sentiment_pipeline_body, bind, extern, read_hf_token. simpl.
  destruct (AutoTokenizer_from_pretrained W _ _) as [t|e]; [|reflexivity].
  simpl.
  destruct (AutoModelForSequenceClassification_from_pretrained W _ _)
    as [m|e]; reflexivity.
Qed.

Lemma page_blind_load : page_blind (load_sentiment_pipeline W).
Proof.
  intros pg st. unfold load_sentiment_pipeline. simpl.
  destruct (cache st) as [h|]; [reflexivity|].
  rewrite page_blind_body.
  destruct (load_sentiment_pipeline_body W st) as [[h|e] st1]; reflexivity.
Qed.

Lemma page_blind_analyze text : page_blind (analyze W text).
Proof.
  unfold analyze. apply page_blind_bind; [apply page_blind_load|].
  intros h. apply page_blind_bind; [apply page_blind_extern|].
  intros out pg st. reflexivity.
Qed.

(** Lines 103-119 on a result [p]. *)
Lemma render_result_spec (p : Prediction) st :
  render_result W p st =
    match progress_check W (score p) with
    | None =>
        (Ok tt,
         with_page (page st ++ [EMarkdown "### Analysis Result";
                                ECard (label p) (score p);
                                EProgress (score p)]) st)
    | Some e =>
        (Raise e,
         with_page (page st ++ [EMarkdown "### Analysis Result";
                                ECard (label p) (score p)]) st)
    end.
Proof.
  unfold render_result, bind, st_draw, st_progress, draw, with_page. simpl.
  destruct (progress_check W (score p)); rewrite <- !app_assoc; reflexivity.
Qed.

(** Lines 88-122: what is drawn, and in which state the run goes on. *)
Lemma on_submit_spec sub st :
  on_submit W sub st =
    (Ok tt,
     with_page
       (page st ++
        submitted_elements W sub (fst (analyze W (user_input sub) st)))
       (if valid sub then snd (analyze W (user_input sub) st) else st)).
Proof.
  unfold on_submit, submitted_elements, valid.
  destruct (analyze_button sub); simpl.
  2:{ unfold ret. rewrite app_nil_r, with_page_id. reflexivity. }
  destruct (is_empty (strip (user_input sub))); simpl; [reflexivity|].
  unfold bind at 1. unfold st_draw at 1. unfold try_except.
  unfold bind at 1. unfold draw at 1.
  rewrite (page_blind_analyze (user_input sub)).
  pose proof (page_blind_page (analyze W (user_input sub)) st
                (page_blind_analyze (user_input sub))) as Hpg.
  destruct (analyze W (user_input sub) st) as [[p|e] st1]; simpl in *.
  - rewrite render_result_spec. simpl.
    destruct (progress_check W (score p)) as [e|]; simpl;
      unfold st_draw, draw, with_page; simpl;
      rewrite <- !app_assoc; reflexivity.
  - unfold st_draw, draw, with_page. simpl.
    rewrite <- !app_assoc. reflexivity.
Qed.

(** [main()] never raises; it draws the header, the elements of the
    submission and the sidebar. *)
Lemma main_spec sub st :
  main W sub st =
    (Ok tt,
     with_page
       (page st ++ header ++
        submitted_elements W sub (fst (analyze W (user_input sub) st)) ++
        sidebar)
       (if valid sub then snd (analyze W (user_input sub) st) else st)).
Proof.
  unfold main, bind. rewrite draw_all_spec, on_submit_spec.
  assert (Hv : forall pg,
    (if valid sub
     then snd (analyze W (user_input sub) (with_page pg st))
     else with_page pg st) =
    with_page pg
      (if valid sub then snd (analyze W (user_input sub) st) else st)).
  { intros pg. destruct (valid sub); [|reflexivity].
    rewrite (page_blind_analyze (user_input sub)). reflexivity. }
  rewrite Hv, (page_blind_analyze (user_input sub)). simpl fst.
  rewrite draw_all_spec. unfold with_page. simpl.
  rewrite <- !app_assoc. reflexivity.
Qed.

(** The loader on a stored handle: line 64. *)
Lemma load_hit st (h : Handle W) :
  cache st = Some h -> load_sentiment_pipeline W st = (Ok h, st).
Proof. intros H. unfold load_sentiment_pipeline. rewrite H. reflexivity. Qed.

(** The loader on an empty store: lines 67-70, call by call. *)
Lemma load_miss st :
  cache st = None ->
  load_sentiment_pipeline W st =
    let name := "ProsusAI/finbert" in
    let tok := hf_token st in
    match AutoTokenizer_from_pretrained W name tok with
    | Raise e => (Raise e, log (EvTokenizer name tok false) st)
    | Ok t =>
        let st1 := log (EvTokenizer name tok true) st in
        match AutoModelForSequenceClassification_from_pretrained W name tok with
        | Raise e => (Raise e, log (EvModel name tok false) st1)
        | Ok m =>
            let st2 := log (EvModel name tok true) st1 in
            match pipeline W "sentiment-analysis" m t with
            | Raise e =>
                (Raise e, log (EvPipeline "sentiment-analysis" false) st2)
            | Ok h =>
                (Ok h,
                 set_cache h (log (EvPipeline "sentiment-analysis" true) st2))
            end
        end
    end.
Proof.
  intros H. unfold load_sentiment_pipeline. rewrite H.
  unfold load_sentiment_pipeline_body, bind, extern, read_hf_token. simpl.
  destruct (AutoTokenizer_from_pretrained W _ _) as [t|e]; [|reflexivity].
  simpl.
  destruct (AutoModelForSequenceClassification_from_pretrained W _ _)
    as [m|e]; [|reflexivity].
  simpl. destruct (pipeline W _ m t) as [h|e]; reflexivity.
Qed.

(** Lines 94-98 in terms of the loader and the pipeline call. *)
Lemma analyze_eq text st :
  analyze W text st =
    match load_sentiment_pipeline W st with
    | (Ok h, st1) =>
        match call W h text with
        | Ok out => (index0 out, log (EvCall text true) st1)
        | Raise e => (Raise e, log (EvCall text false) st1)
        end
    | (Raise e, st1) => (Raise e, st1)
    end.
Proof.
  unfold analyze, bind, extern.
  destruct (load_sentiment_pipeline W st) as [[h|e] st1]; [|reflexivity].
  destruct (call W h text) as [out|e]; reflexivity.
Qed.

Lemma constructions_app (tr evs : list Event) :
  constructions (tr ++ evs) = constructions tr + constructions evs.
Proof. unfold constructions. rewrite filter_app, length_app. reflexivity. Qed.

(** What the loader leaves behind. *)
Lemma load_effect st :
  let r := fst (load_sentiment_pipeline W st) in
  let st' := snd (load_sentiment_pipeline W st) in
  environ st' = environ st /\ hf_token st' = hf_token st /\
  exists evs,
    trace st' = trace st ++ evs /\
    Forall (fun ev => is_getenv ev = false) evs /\
    match cache st, r with
    | Some h, _ => r = Ok h /\ cache st' = Some h /\ evs = []
    | None, Ok h => cache st' = Some h /\ constructions evs = 1
    | None, Raise _ => cache st' = None /\ constructions evs = 0
    end.
Proof.
  destruct (cache st) as [h|] eqn:Hc.
  - rewrite (load_hit st h Hc). simpl. rewrite Hc.
    repeat split. exists []. rewrite app_nil_r. repeat split. constructor.
  - rewrite (load_miss st Hc). simpl.
    destruct (AutoTokenizer_from_pretrained W _ _) as [t|e]; simpl.
    2:{ repeat split. eexists. repeat split; [|exact Hc].
        repeat constructor. }
    destruct (AutoModelForSequenceClassification_from_pretrained W _ _)
      as [m|e]; simpl.
    2:{ repeat split. eexists. split; [rewrite <- app_assoc; reflexivity|].
        repeat split; [|exact Hc]. repeat constructor. }
    destruct (pipeline W _ m t) as [h|e]; simpl.
    + repeat split. eexists. split; [rewrite <- !app_assoc; reflexivity|].
      repeat split. repeat constructor.
    + repeat split. eexists. split; [rewrite <- !app_assoc; reflexivity|].
      repeat split; [|exact Hc]. repeat constructor.
Qed.

(** What lines 94-98 leave behind. *)
Lemma analyze_effect text st :
  let st' := snd (analyze W text st) in
  environ st' = environ st /\ hf_token st' = hf_token st /\
  (forall h, cache st = Some h -> cache st' = Some h) /\
  (store_consistent st -> store_consistent st') /\
  (cache st' = cache st \/ cache st = None /\ exists h, cache st' = Some h) /\
  exists evs, trace st' = trace st ++ evs /\
              Forall (fun ev => is_getenv ev = false) evs.
Proof.
  simpl. rewrite analyze_eq.
  destruct (load_effect st) as (He & Ht & evs & Htr & Hg & Hm).
  destruct (load_sentiment_pipeline W st) as [r st1]. simpl in *.
  assert (Hmono : forall h, cache st = Some h -> cache st1 = Some h).
  { intros h Hh. rewrite Hh in Hm. tauto. }
  assert (Hcons : store_consistent st -> store_consistent st1).
  { unfold store_consistent. rewrite Htr, constructions_app. intros ->.
    destruct (cache st) as [h|].
    - destruct Hm as (_ & -> & ->). reflexivity.
    - destruct r as [h|e]; destruct Hm as [-> ->]; reflexivity. }
  assert (Hch : cache st1 = cache st \/
                cache st = None /\ exists h, cache st1 = Some h).
  { destruct (cache st) as [h|].
    - left. tauto.
    - destruct r as [h|e]; [right | left]; intuition eauto. }
  assert (Hlog : forall ok,
    let st' := log (EvCall text ok) st1 in
    environ st' = environ st /\ hf_token st' = hf_token st /\
    (forall h, cache st = Some h -> cache st' = Some h) /\
    (store_consistent st -> store_consistent st') /\
    (cache st' = cache st \/
     cache st = None /\ exists h, cache st' = Some h) /\
    exists evs', trace st' = trace st ++ evs' /\
                 Forall (fun ev => is_getenv ev = false) evs').
  { intros ok. simpl. repeat split; try assumption.
    - intros Hs. specialize (Hcons Hs). unfold store_consistent in *.
      simpl. rewrite constructions_app, Hcons.
      change (constructions [EvCall text ok]) with 0. lia.
    - exists (evs ++ [EvCall text ok]). rewrite Htr, <- app_assoc.
      split; [reflexivity|]. apply Forall_app. split; [assumption|].
      repeat constructor. }
  destruct r as [h|e].
  - destruct (call W h text) as [out|e]; apply Hlog.
  - simpl. repeat split; try assumption. exists evs. split; assumption.
Qed.

Lemma analyze_fst_page text pg st :
  fst (analyze W text (with_page pg st)) = fst (analyze W text st).
Proof. rewrite (page_blind_analyze text). reflexivity. Qed.

Lemma analyze_snd_page text pg st :
  snd (analyze W text (with_page pg st)) =
  with_page pg (snd (analyze W text st)).
Proof. rewrite (page_blind_analyze text). reflexivity. Qed.

(** The page of a run of [main] that starts on a fresh page. *)
Lemma main_page sub st :
  page (snd (main W sub (clear_page st))) =
  header ++
  submitted_elements W sub (fst (analyze W (user_input sub) st)) ++ sidebar.
Proof.
  rewrite main_spec. unfold clear_page. rewrite analyze_fst_page.
  reflexivity.
Qed.

(** Lines 94-98 when a handle is stored: one pipeline call on it. *)
Lemma analyze_hit text st (h : Handle W) :
  cache st = Some h ->
  analyze W text st =
    (match call W h text with Ok out => index0 out | Raise e => Raise e end,
     log (EvCall text (returned (call W h text))) st).
Proof.
  intros Hc. rewrite analyze_eq, (load_hit st h Hc).
  destruct (call W h text); reflexivity.
Qed.

(** An exception of the pipeline call is the exception of lines 94-98. *)
Lemma analyze_raises_what_call_raises text st (h : Handle W) (e : Exc) :
  fst (load_sentiment_pipeline W st) = Ok h ->
  call W h text = Raise e ->
  fst (analyze W text st) = Raise e.
Proof.
  intros Hl Hc. rewrite analyze_eq.
  destruct (load_sentiment_pipeline W st) as [r st1]. simpl in Hl.
  subst r. rewrite Hc. reflexivity.
Qed.

Lemma load_calls_app (tr evs : list Event) :
  load_calls (tr ++ evs) = load_calls tr + load_calls evs.
Proof. unfold load_calls. rewrite filter_app, length_app. reflexivity. Qed.

(** ** Runs of the script *)

Lemma read_credential_eq st :
  read_credential W st =
    (Ok tt,
     set_hf_token (load_dotenv W (environ st) !! "HUGGINGFACE_TOKEN")
       (log (EvGetenv "HUGGINGFACE_TOKEN"
               (load_dotenv W (environ st) !! "HUGGINGFACE_TOKEN"))
          (log EvLoadDotenv (set_environ (load_dotenv W (environ st)) st)))).
Proof. reflexivity. Qed.

(** One run of the script: the credential is read first, then [main]. *)
Lemma script_spec sub st :
  let st1 := snd (read_credential W st) in
  script W sub st =
    (Ok tt,
     with_page
       (page st ++
        [EPageConfig "Market Mind | Financial Sentiment Analysis" "centered";
         EStyle] ++ header ++
        submitted_elements W sub (fst (analyze W (user_input sub) st1)) ++
        sidebar)
       (if valid sub then snd (analyze W (user_input sub) st1) else st1)).
Proof.
  simpl. unfold script, bind. rewrite read_credential_eq. simpl.
  set (st1 := set_hf_token _ _).
  unfold st_draw, draw. simpl.
  rewrite main_spec.
  change (with_page _ (with_page ?a st1)) with
    (with_page
       ((page st ++
         [EPageConfig "Market Mind | Financial Sentiment Analysis"
            "centered"]) ++ [EStyle]) st1).
  rewrite !(page_blind_analyze (user_input sub)). simpl.
  destruct (valid sub); unfold with_page; simpl;
    rewrite <- !app_assoc; reflexivity.
Qed.

Lemma rerun_keeps st sub :
  (forall h, cache st = Some h -> cache (rerun W st sub) = Some h) /\
  (store_consistent st -> store_consistent (rerun W st sub)).
Proof.
  unfold rerun. rewrite script_spec, read_credential_eq. simpl.
  set (st1 := set_hf_token _ _).
  assert (Hc1 : cache st1 = cache st) by reflexivity.
  assert (Hs1 : store_consistent st -> store_consistent st1).
  { unfold store_consistent. rewrite Hc1. intros <-. subst st1. simpl.
    rewrite <- app_assoc, constructions_app.
    change (constructions ([EvLoadDotenv] ++ [EvGetenv _ _])) with 0. lia. }
  destruct (valid sub).
  - pose proof (analyze_effect (user_input sub) st1)
      as (_ & _ & Hm & Hs & _).
    split.
    + intros h Hh. apply Hm. rewrite Hc1. exact Hh.
    + intros H. apply Hs, Hs1, H.
  - split; [intros h Hh; rewrite <- Hh; exact Hc1 | exact Hs1].
Qed.

Lemma session_keeps subs : forall st,
  (forall h, cache st = Some h -> cache (session W st subs) = Some h) /\
  (store_consistent st -> store_consistent (session W st subs)).
Proof.
  induction subs as [|sub subs IH]; intros st; simpl; [tauto|].
  destruct (rerun_keeps st sub) as [Hc Hs].
  destruct (IH (rerun W st sub)) as [Hc' Hs'].
  split; [intros h Hh; apply Hc', Hc, Hh | intros H; apply Hs', Hs, H].
Qed.

(** Once a handle is stored, a run makes no call that loads or builds. *)
Lemma rerun_hit st sub (h : Handle W) :
  cache st = Some h ->
  load_calls (trace (rerun W st sub)) = load_calls (trace st).
Proof.
  intros Hc. unfold rerun. rewrite script_spec, read_credential_eq. simpl.
  set (st1 := set_hf_token _ _).
  assert (Hc1 : cache st1 = Some h) by exact Hc.
  assert (Ht1 : load_calls (trace st1) = load_calls (trace st)).
  { subst st1. simpl. rewrite <- app_assoc, load_calls_app.
    change (load_calls ([EvLoadDotenv] ++ [EvGetenv _ _])) with 0. lia. }
  clearbody st1.
  destruct (valid sub); [|exact Ht1].
  rewrite (analyze_hit (user_input sub) st1 h Hc1). simpl.
  rewrite load_calls_app, Ht1.
  change (load_calls [EvCall _ _]) with 0. lia.
Qed.

Lemma session_hit subs : forall st (h : Handle W),
  cache st = Some h ->
  load_calls (trace (session W st subs)) = load_calls (trace st).
Proof.
  induction subs as [|sub subs IH]; intros st h Hc; simpl; [reflexivity|].
  rewrite (IH (rerun W st sub) h).
  - apply (rerun_hit st sub h Hc).
  - apply rerun_keeps, Hc.
Qed.

(** No exception leaves [main] or the script. *)
Lemma main_returns sub st : fst (main W sub st) = Ok tt.
Proof. rewrite main_spec. reflexivity. Qed.

Lemma script_returns sub st : fst (script W sub st) = Ok tt.
Proof. rewrite script_spec. reflexivity. Qed.

End Facts.

(** ** Validation: blank input *)

Section Claims.

Context (W : World).
Implicit Types (st : State W) (sub : Submission) (text : str).

(** C2.  When the button is clicked on a text that is empty or
    whitespace-only (its [strip()] is the empty text), [main] draws the
    warning of line 90 between the header and the sidebar and nothing else;
    the loader and the pipeline are not called (the log of calls and the
    handle store are as before), and the page holds a warning and neither a
    result card, a progress bar nor an error message. *)
Theorem blank_input_is_warned_not_analyzed st sub :
  analyze_button sub = true ->
  is_empty (strip (user_input sub)) = true ->
  main W sub st =
    (Ok tt,
     with_page (page st ++ header ++
                [EWarning "Please enter some text to analyze."] ++ sidebar)
               st) /\
  trace (snd (main W sub st)) = trace st /\
  cache (snd (main W sub st)) = cache st /\
  outcome (page (snd (main W sub (clear_page st)))) =
    (true, false, false, false).
Proof.
  intros Hb He.
  assert (Hm : forall st0, main W sub st0 =
    (Ok tt,
     with_page (page st0 ++ header ++
                [EWarning "Please enter some text to analyze."] ++ sidebar)
               st0)).
  { intros st0. rewrite main_spec. unfold submitted_elements, valid.
    rewrite Hb, He. reflexivity. }
  rewrite !Hm. repeat split.
Qed.

(** ** Errors raised while analyzing *)

(** C4.  When the button is clicked on a non-blank text and lines 94-98
    raise [e] (the loader, the pipeline call or the selection of entry 0),
    [main] returns normally, and the page shows, after the spinner, the
    message of line 122 that ends with [str(e)], and neither a result card
    nor a progress bar. *)
Theorem raised_error_is_caught_and_shown st sub (e : Exc) :
  analyze_button sub = true ->
  is_empty (strip (user_input sub)) = false ->
  fst (analyze W (user_input sub) st) = Raise e ->
  fst (main W sub st) = Ok tt /\
  page (snd (main W sub st)) =
    page st ++ header ++
    [ESpinner "Analyzing market sentiment...";
     EError ("An error occurred during analysis: " +:+ exc_str e)] ++
    sidebar /\
  outcome (page (snd (main W sub (clear_page st)))) =
    (false, false, false, true).
Proof.
  intros Hb He Hr.
  assert (Hr0 : fst (analyze W (user_input sub) (clear_page st)) = Raise e).
  { unfold clear_page. rewrite (page_blind_analyze W (user_input sub)).
    exact Hr. }
  rewrite !main_spec. simpl. unfold submitted_elements.
  rewrite Hb, He, Hr, Hr0. repeat split.
Qed.

(** ** The result shown *)

(** C6.  When the button is clicked on a non-blank text, the loader gives
    the handle [h] and [h] returns the list [p :: rest] for the text of the
    text area as it was typed, then the one pipeline call of the run is on
    that text, and the card shows the label and the score of [p], whatever
    the score is and whatever [rest] holds; the same score goes to the
    progress bar. *)
Theorem top_entry_is_shown_unchanged st sub (h : Handle W)
    (p : Prediction) (rest : list Prediction) :
  analyze_button sub = true ->
  is_empty (strip (user_input sub)) = false ->
  fst (load_sentiment_pipeline W st) = Ok h ->
  call W h (user_input sub) = Ok (p :: rest) ->
  fst (analyze W (user_input sub) st) = Ok p /\
  trace (snd (main W sub st)) =
    trace (snd (load_sentiment_pipeline W st)) ++
    [EvCall (user_input sub) true] /\
  page (snd (main W sub st)) =
    page st ++ header ++
    [ESpinner "Analyzing market sentiment...";
     EMarkdown "### Analysis Result";
     ECard (label p) (score p)] ++
    match progress_check W (score p) with
    | None => [EProgress (score p)]
    | Some e =>
        [EError ("An error occurred during analysis: " +:+ exc_str e)]
    end ++ sidebar.
Proof.
  intros Hb He Hl Hc.
  assert (Ha : analyze W (user_input sub) st =
    (Ok p, log (EvCall (user_input sub) true)
             (snd (load_sentiment_pipeline W st)))).
  { rewrite analyze_eq.
    destruct (load_sentiment_pipeline W st) as [r st1]. simpl in *.
    subst r. rewrite Hc. reflexivity. }
  rewrite main_spec, Ha. unfold valid, submitted_elements.
  rewrite Hb, He. simpl.
  repeat split.
Qed.

(** ** The outcomes of a submission *)

(** C9, as amended.  A click on the button ends in exactly one of four
    ways: a warning and nothing else (blank text); an error message and
    neither card nor bar (lines 94-98 raised); a result card with its
    progress bar and no error message; or, when [st.progress] refuses the
    score, the card that was drawn before it together with the error
    message, and no bar. *)
Theorem submission_outcomes st sub :
  analyze_button sub = true ->
  let r := fst (analyze W (user_input sub) st) in
  let o := outcome (page (snd (main W sub (clear_page st)))) in
  (is_empty (strip (user_input sub)) = true /\
   o = (true, false, false, false)) \/
  (is_empty (strip (user_input sub)) = false /\
   exists e, r = Raise e /\ o = (false, false, false, true)) \/
  (is_empty (strip (user_input sub)) = false /\
   exists p, r = Ok p /\ progress_check W (score p) = None /\
             o = (false, true, true, false)) \/
  (is_empty (strip (user_input sub)) = false /\
   exists p e, r = Ok p /\ progress_check W (score p) = Some e /\
               o = (false, true, false, true)).
Proof.
  intros Hb. simpl.
  assert (Hr0 : fst (analyze W (user_input sub) (clear_page st)) =
                fst (analyze W (user_input sub) st)).
  { unfold clear_page. rewrite (page_blind_analyze W (user_input sub)).
    reflexivity. }
  rewrite main_spec, Hr0. simpl. unfold submitted_elements. rewrite Hb.
  destruct (is_empty (strip (user_input sub))).
  { left. split; reflexivity. }
  right.
  destruct (fst (analyze W (user_input sub) st)) as [p|e].
  - right. simpl.
    destruct (progress_check W (score p)) as [e|] eqn:Hp.
    + right. split; [reflexivity|]. exists p, e. repeat split; assumption.
    + left. split; [reflexivity|]. exists p. repeat split; assumption.
  - left. split; [reflexivity|]. exists e. repeat split.
Qed.

(** ** The analyze operation *)

(** C1, as amended.  On a non-blank text, whenever lines 94-98 return a
    result, a handle [h] is stored and the result is entry 0 of what [h]
    returned for that text, label and score as they are: the result is
    well formed (label among positive, negative, neutral; score within
    0 and 1) exactly when that entry is.  The handler checks neither. *)
Theorem analyze_returns_top_entry st text (r : Prediction) st' :
  is_empty (strip text) = false ->
  analyze W text st = (Ok r, st') ->
  exists (h : Handle W) (p : Prediction) (rest : list Prediction),
    cache st' = Some h /\
    call W h text = Ok (p :: rest) /\
    label r = label p /\ score r = score p /\
    well_formed r = well_formed p.
Proof.
  intros _ Ha. rewrite analyze_eq in Ha.
  pose proof (load_effect W st) as (_ & _ & evs & _ & _ & Hm).
  destruct (load_sentiment_pipeline W st) as [[h|e] st1]; [|discriminate].
  simpl in Hm.
  assert (Hc : cache st1 = Some h).
  { destruct (cache st) as [h0|]; [|tauto].
    destruct Hm as (Hh & -> & _). congruence. }
  destruct (call W h text) as [[|p rest]|e] eqn:Hcall;
    simpl in Ha; try discriminate.
  injection Ha as <- <-. exists h, p, rest. repeat split; assumption.
Qed.

(** C5.  Two invocations of lines 94-98 in a row on the same text end the
    same way: the same label and score, or the same exception; two runs of
    [main] in a row on the same submission draw the same page; and once a
    handle is stored, an invocation after any further runs of the script
    ends as it does now. *)
Theorem analyze_is_repeatable st sub :
  let text := user_input sub in
  fst (analyze W text (snd (analyze W text st))) = fst (analyze W text st) /\
  page (snd (main W sub (clear_page (snd (main W sub (clear_page st)))))) =
  page (snd (main W sub (clear_page st))) /\
  (forall (h : Handle W) (subs : list Submission),
     cache st = Some h ->
     fst (analyze W text (session W st subs)) = fst (analyze W text st)).
Proof.
  simpl.
  assert (H1 : forall st0 text,
    fst (analyze W text (snd (analyze W text st0))) =
    fst (analyze W text st0)).
  { intros st0 text. rewrite (analyze_eq W text st0).
    destruct (cache st0) as [h|] eqn:Hc.
    - rewrite (load_hit W st0 h Hc).
      assert (Hs : forall ok, analyze W text (log (EvCall text ok) st0) =
        match call W h text with
        | Ok out => (index0 out, log (EvCall text true)
                                   (log (EvCall text ok) st0))
        | Raise e => (Raise e, log (EvCall text false)
                                 (log (EvCall text ok) st0))
        end).
      { intros ok. rewrite analyze_eq, (load_hit W _ h); [reflexivity|].
        exact Hc. }
      destruct (call W h text) as [out|e]; simpl; rewrite Hs; reflexivity.
    - rewrite (load_miss W st0 Hc). simpl.
      destruct (AutoTokenizer_from_pretrained W _ _) as [t|e] eqn:Ht.
      2:{ simpl. rewrite analyze_eq, load_miss; [|exact Hc].
          simpl. rewrite Ht. reflexivity. }
      destruct (AutoModelForSequenceClassification_from_pretrained W _ _)
        as [m|e] eqn:Hmd.
      2:{ simpl. rewrite analyze_eq, load_miss; [|exact Hc].
          simpl. rewrite Ht, Hmd. reflexivity. }
      destruct (pipeline W _ m t) as [h|e] eqn:Hp.
      2:{ simpl. rewrite analyze_eq, load_miss; [|exact Hc].
          simpl. rewrite Ht, Hmd, Hp. reflexivity. }
      destruct (call W h text) as [out|e] eqn:Hcall; simpl;
        rewrite analyze_eq, (load_hit W _ h); try reflexivity;
        rewrite Hcall; reflexivity. }
  split; [apply H1|]. split.
  2:{ intros h subs Hc.
      rewrite (analyze_hit W (user_input sub) st h Hc).
      rewrite (analyze_hit W (user_input sub) (session W st subs) h).
      - reflexivity.
      - apply session_keeps, Hc. }
  rewrite !main_page. do 2 f_equal.
  unfold submitted_elements.
  destruct (analyze_button sub) eqn:Hb; [|reflexivity].
  destruct (is_empty (strip (user_input sub))) eqn:He; [reflexivity|].
  do 2 f_equal.
  rewrite main_spec. unfold valid. rewrite Hb, He. simpl.
  unfold clear_page.
  rewrite analyze_fst_page, analyze_snd_page, analyze_fst_page.
  apply H1.
Qed.

(** ** The loader and its store *)

(** C3.  In a process that starts with an empty store, after any sequence
    of runs at most one [pipeline(...)] call has returned a handle, and one
    has exactly when a handle is stored; from then on the loader returns
    that stored handle and leaves the state as it is, and no later run
    replaces the handle, builds another or calls [from_pretrained] or
    [pipeline(...)] again. *)
Theorem pipeline_is_built_at_most_once
    (env : gmap string string) (subs subs' : list Submission) :
  let st := session W (boot W env) subs in
  let st' := session W st subs' in
  constructions (trace st) <= 1 /\
  store_consistent st /\
  (forall h, cache st = Some h ->
     load_sentiment_pipeline W st = (Ok h, st) /\
     cache st' = Some h /\
     constructions (trace st') = constructions (trace st) /\
     load_calls (trace st') = load_calls (trace st)).
Proof.
  simpl.
  assert (Hs : store_consistent (session W (boot W env) subs)).
  { apply session_keeps. reflexivity. }
  split; [|split; [exact Hs|]].
  - unfold store_consistent in Hs. rewrite Hs.
    destruct (cache _); lia.
  - intros h Hh. split; [apply load_hit, Hh|].
    destruct (session_keeps W subs' (session W (boot W env) subs))
      as [Hc' Hs'].
    specialize (Hc' h Hh). specialize (Hs' Hs).
    split; [exact Hc'|]. split.
    + unfold store_consistent in *. rewrite Hs, Hs', Hc', Hh. reflexivity.
    + apply (session_hit W subs' _ h Hh).
Qed.

(** C7, as amended.  Every run of the script reads the credential on its
    first lines, before [main] and whatever is submitted: after the run
    [hf_token] is the value of HUGGINGFACE_TOKEN in the environment that
    [load_dotenv] left, and the run reads no environment variable after
    that.  The loader called on an empty store passes the
    fixed model name and the current [hf_token] to both [from_pretrained]
    calls, builds the pipeline from their results and stores it, reading no
    environment variable itself; called on a stored handle it returns that
    handle and does nothing else. *)
Theorem credential_then_loader st :
  (forall sub,
     let v := load_dotenv W (environ st) !! "HUGGINGFACE_TOKEN" in
     hf_token (snd (script W sub st)) = v /\
     exists evs,
       trace (snd (script W sub st)) =
         trace st ++ EvLoadDotenv :: EvGetenv "HUGGINGFACE_TOKEN" v :: evs /\
       Forall (fun ev => is_getenv ev = false) evs) /\
  (forall (h : Handle W) st',
     cache st = None ->
     load_sentiment_pipeline W st = (Ok h, st') ->
     exists t m,
       AutoTokenizer_from_pretrained W "ProsusAI/finbert" (hf_token st)
         = Ok t /\
       AutoModelForSequenceClassification_from_pretrained W
         "ProsusAI/finbert" (hf_token st)
         = Ok m /\
       pipeline W "sentiment-analysis" m t = Ok h /\
       cache st' = Some h /\
       trace st' =
         trace st ++
         [EvTokenizer "ProsusAI/finbert" (hf_token st) true;
          EvModel "ProsusAI/finbert" (hf_token st) true;
          EvPipeline "sentiment-analysis" true]) /\
  (forall h, cache st = Some h -> load_sentiment_pipeline W st = (Ok h, st)).
Proof.
  split; [|split].
  - intros sub. rewrite script_spec, read_credential_eq. simpl.
    set (st1 := set_hf_token _ _).
    assert (Ht1 : trace st1 =
      trace st ++
      [EvLoadDotenv;
       EvGetenv "HUGGINGFACE_TOKEN"
         (load_dotenv W (environ st) !! "HUGGINGFACE_TOKEN")]).
    { subst st1. simpl. rewrite <- app_assoc. reflexivity. }
    assert (Hk1 : hf_token st1 =
                  load_dotenv W (environ st) !! "HUGGINGFACE_TOKEN")
      by reflexivity.
    clearbody st1.
    destruct (valid sub).
    + pose proof (analyze_effect W (user_input sub) st1)
        as (_ & Ht & _ & _ & _ & evs & Htr & Hg).
      split; [rewrite Ht; exact Hk1|].
      exists evs. split; [|exact Hg].
      rewrite Htr, Ht1, <- app_assoc. reflexivity.
    + split; [exact Hk1|]. exists []. split; [exact Ht1|constructor].
  - intros h st' Hc Hl. rewrite (load_miss W st Hc) in Hl. simpl in Hl.
    destruct (AutoTokenizer_from_pretrained W _ _) as [t|e];
      [|discriminate].
    destruct (AutoModelForSequenceClassification_from_pretrained W _ _)
      as [m|e]; [|discriminate].
    destruct (pipeline W _ m t) as [h'|e] eqn:Hp; [|discriminate].
    injection Hl as <- <-. exists t, m. repeat split.
    + exact Hp.
    + simpl. rewrite <- !app_assoc. reflexivity.
  - intros h Hh. apply load_hit, Hh.
Qed.

(** C8.  A run of [main] leaves the environment and [hf_token] as they
    were and never replaces a stored handle; the store changes only on a
    valid submission made while it is empty, and then to the handle the
    loader returned. *)
Theorem invocation_touches_only_the_store st sub :
  let st' := snd (main W sub st) in
  environ st' = environ st /\
  hf_token st' = hf_token st /\
  (forall h, cache st = Some h -> cache st' = Some h) /\
  (cache st' = cache st \/
   valid sub = true /\ cache st = None /\
   exists h, cache st' = Some h /\
             fst (load_sentiment_pipeline W st) = Ok h).
Proof.
  simpl. rewrite main_spec. simpl.
  destruct (valid sub); [|repeat split; tauto].
  rewrite analyze_eq.
  pose proof (load_effect W st) as (He & Ht & evs & _ & _ & Hm).
  destruct (load_sentiment_pipeline W st) as [r st1]. simpl in *.
  assert (Hst1 :
    (forall h, cache st = Some h -> cache st1 = Some h) /\
    (cache st1 = cache st \/
     true = true /\ cache st = None /\
     exists h, cache st1 = Some h /\ r = Ok h)).
  { destruct (cache st) as [h0|].
    - destruct Hm as (_ & Hc & _). split; [intros h [= <-] | left]; exact Hc.
    - split; [discriminate|].
      destruct r as [h|e]; destruct Hm as [Hc _]; [right | left; exact Hc].
      repeat split. exists h. split; [exact Hc | reflexivity]. }
  destruct r as [h|e]; [destruct (call W h (user_input sub))|];
    simpl; repeat split; tauto.
Qed.

(** C10.  When HUGGINGFACE_TOKEN is absent from the environment that
    [load_dotenv] leaves, [hf_token] becomes [None]; the loader, called on
    an empty store, then starts by calling the tokenizer's
    [from_pretrained] with the model name and [token=None], goes on to the
    model's [from_pretrained] with [token=None] when that returns, and
    raises only what one of the provider's calls raised. *)
Theorem missing_token_is_passed_as_none st :
  load_dotenv W (environ st) !! "HUGGINGFACE_TOKEN" = None ->
  cache st = None ->
  let st1 := snd (read_credential W st) in
  let tok := AutoTokenizer_from_pretrained W "ProsusAI/finbert" None in
  let mdl :=
    AutoModelForSequenceClassification_from_pretrained W
      "ProsusAI/finbert" None in
  hf_token st1 = None /\
  exists evs,
    trace (snd (load_sentiment_pipeline W st1)) =
      trace st1 ++ EvTokenizer "ProsusAI/finbert" None (returned tok) :: evs /\
    (returned tok = true ->
     exists evs',
       evs = EvModel "ProsusAI/finbert" None (returned mdl) :: evs') /\
    (forall e, fst (load_sentiment_pipeline W st1) = Raise e ->
       tok = Raise e \/ mdl = Raise e \/
       exists t m, pipeline W "sentiment-analysis" m t = Raise e).
Proof.
  intros Henv Hc st1 tok mdl. subst st1 tok mdl.
  rewrite read_credential_eq, Henv. simpl.
  split; [reflexivity|].
  rewrite load_miss; [|exact Hc]. simpl.
  destruct (AutoTokenizer_from_pretrained W _ None) as [t|e].
  2:{ exists []. simpl. split; [reflexivity|].
      split; [discriminate|]. intros e' [= ->]. left. reflexivity. }
  destruct (AutoModelForSequenceClassification_from_pretrained W _ None)
    as [m|e].
  2:{ eexists. simpl. split; [rewrite <- !app_assoc; reflexivity|].
      split; [intros _; eexists; reflexivity|].
      intros e' [= ->]. right. left. reflexivity. }
  destruct (pipeline W _ m t) as [h|e] eqn:Hp.
  - eexists. simpl. split; [rewrite <- !app_assoc; reflexivity|].
    split; [intros _; eexists; reflexivity|]. discriminate.
  - eexists. simpl. split; [rewrite <- !app_assoc; reflexivity|].
    split; [intros _; eexists; reflexivity|].
    intros e' [= ->]. right. right. exists t, m. exact Hp.
Qed.

End Claims.

(** ** The theorems at sample inputs *)

(** C1 as first stated fails: with a provider that cannot load the model
    the analyze operation returns no result for a non-blank text, and with
    a provider whose top label is LABEL_0 it returns that label. *)
Lemma analyze_result_not_guaranteed :
  is_empty (strip apple) = false /\
  (forall r st', analyze offline apple (boot offline ∅) <> (Ok r, st')) /\
  (exists r st',
     analyze unlabelled apple (boot unlabelled ∅) = (Ok r, st') /\
     well_formed r = false).
Proof.
  split; [reflexivity|]. split.
  - intros r st' H. vm_compute in H. discriminate H.
  - eexists. eexists. split; [vm_compute; reflexivity | reflexivity].
Qed.

(** A provider that answers like FinBERT: the result is its first entry. *)
Lemma analyze_returns_top_entry_witness :
  let st := boot finbert_like ∅ in
  let r := mkPrediction "positive" 0.875%float in
  let st' := snd (analyze finbert_like apple st) in
  is_empty (strip apple) = false /\
  analyze finbert_like apple st = (Ok r, st') /\
  exists (h : Handle finbert_like) (p : Prediction) (rest : list Prediction),
    cache st' = Some h /\
    call finbert_like h apple = Ok (p :: rest) /\
    label r = label p /\ score r = score p /\
    well_formed r = well_formed p.
Proof.
  split; [reflexivity|]. split; [reflexivity|].
  apply (analyze_returns_top_entry finbert_like (boot finbert_like ∅) apple
           (mkPrediction "positive" 0.875%float)
           (snd (analyze finbert_like apple (boot finbert_like ∅))));
    reflexivity.
Defined.

(** A text of spaces, a tab, a newline and two Unicode spaces is blank. *)
Lemma blank_input_is_warned_not_analyzed_witness :
  let st := boot finbert_like ∅ in
  let sub := ask blanks in
  analyze_button sub = true /\
  is_empty (strip (user_input sub)) = true /\
  (main finbert_like sub st =
     (Ok tt,
      with_page (page st ++ header ++
                 [EWarning "Please enter some text to analyze."] ++ sidebar)
                st) /\
   trace (snd (main finbert_like sub st)) = trace st /\
   cache (snd (main finbert_like sub st)) = cache st /\
   outcome (page (snd (main finbert_like sub (clear_page st)))) =
     (true, false, false, false)).
Proof.
  split; [reflexivity|]. split; [reflexivity|].
  apply (blank_input_is_warned_not_analyzed finbert_like
           (boot finbert_like ∅) (ask blanks)); reflexivity.
Defined.

(** One valid run builds the handle; a blank and a valid run after it keep
    it. *)
Lemma pipeline_is_built_at_most_once_witness :
  let st := session finbert_like (boot finbert_like ∅) [ask apple] in
  let st' := session finbert_like st [ask blanks; ask apple] in
  cache st = Some tt /\
  (constructions (trace st) <= 1 /\
   store_consistent st /\
   (forall h, cache st = Some h ->
      load_sentiment_pipeline finbert_like st = (Ok h, st) /\
      cache st' = Some h /\
      constructions (trace st') = constructions (trace st) /\
      load_calls (trace st') = load_calls (trace st))).
Proof.
  split; [reflexivity|].
  apply (pipeline_is_built_at_most_once finbert_like ∅
           [ask apple] [ask blanks; ask apple]).
Defined.

(** A pipeline call that raises RuntimeError. *)
Lemma raised_error_is_caught_and_shown_witness :
  let st := boot faulty ∅ in
  let sub := ask apple in
  let e := mkExc "RuntimeError" "out of memory" in
  analyze_button sub = true /\
  is_empty (strip (user_input sub)) = false /\
  fst (analyze faulty (user_input sub) st) = Raise e /\
  (fst (main faulty sub st) = Ok tt /\
   page (snd (main faulty sub st)) =
     page st ++ header ++
     [ESpinner "Analyzing market sentiment...";
      EError ("An error occurred during analysis: " +:+ exc_str e)] ++
     sidebar /\
   outcome (page (snd (main faulty sub (clear_page st)))) =
     (false, false, false, true)).
Proof.
  split; [reflexivity|]. split; [reflexivity|]. split; [reflexivity|].
  apply (raised_error_is_caught_and_shown faulty (boot faulty ∅)
           (ask apple) (mkExc "RuntimeError" "out of memory"));
    reflexivity.
Defined.

(** Three entries come back; the first one is shown. *)
Lemma top_entry_is_shown_unchanged_witness :
  let W := finbert_like in
  let st := boot W ∅ in
  let sub := ask apple in
  let p := mkPrediction "positive" 0.875%float in
  let rest := [mkPrediction "neutral" 0.0625%float;
               mkPrediction "negative" 0.0625%float] in
  analyze_button sub = true /\
  is_empty (strip (user_input sub)) = false /\
  fst (load_sentiment_pipeline W st) = Ok tt /\
  call W tt (user_input sub) = Ok (p :: rest) /\
  (fst (analyze W (user_input sub) st) = Ok p /\
   trace (snd (main W sub st)) =
     trace (snd (load_sentiment_pipeline W st)) ++
     [EvCall (user_input sub) true] /\
   page (snd (main W sub st)) =
     page st ++ header ++
     [ESpinner "Analyzing market sentiment...";
      EMarkdown "### Analysis Result";
      ECard (label p) (score p)] ++
     match progress_check W (score p) with
     | None => [EProgress (score p)]
     | Some e =>
         [EError ("An error occurred during analysis: " +:+ exc_str e)]
     end ++ sidebar).
Proof.
  split; [reflexivity|]. split; [reflexivity|]. split; [reflexivity|].
  split; [reflexivity|].
  apply (top_entry_is_shown_unchanged finbert_like (boot finbert_like ∅)
           (ask apple) tt (mkPrediction "positive" 0.875%float)
           [mkPrediction "neutral" 0.0625%float;
            mkPrediction "negative" 0.0625%float]); reflexivity.
Defined.

(** C7 as first stated fails: a run on a blank text reads the credential
    although the loader is never called, and of two runs on a valid text
    each reads it, the first before the loader is called and the second
    when the handle is already stored. *)
Lemma credential_is_read_outside_the_loader :
  trace (session finbert_like (boot finbert_like ∅) [ask blanks]) =
    [EvLoadDotenv; EvGetenv "HUGGINGFACE_TOKEN" None] /\
  trace (session finbert_like (boot finbert_like ∅) [ask apple; ask apple]) =
    [EvLoadDotenv; EvGetenv "HUGGINGFACE_TOKEN" None;
     EvTokenizer "ProsusAI/finbert" None true;
     EvModel "ProsusAI/finbert" None true;
     EvPipeline "sentiment-analysis" true;
     EvCall apple true;
     EvLoadDotenv; EvGetenv "HUGGINGFACE_TOKEN" None;
     EvCall apple true].
Proof. split; vm_compute; reflexivity. Qed.

(** The loader on an empty store and then on the handle it stored. *)
Lemma credential_then_loader_witness :
  let W := finbert_like in
  let st := snd (read_credential W (boot W ∅)) in
  let st' := snd (load_sentiment_pipeline W st) in
  cache st = None /\
  load_sentiment_pipeline W st = (Ok tt, st') /\
  cache st' = Some tt /\
  load_sentiment_pipeline W st' = (Ok tt, st') /\
  trace st' =
    trace st ++
    [EvTokenizer "ProsusAI/finbert" (hf_token st) true;
     EvModel "ProsusAI/finbert" (hf_token st) true;
     EvPipeline "sentiment-analysis" true].
Proof.
  intros W st st'.
  assert (Hc : cache st = None) by reflexivity.
  assert (Hl : load_sentiment_pipeline W st = (Ok tt, st')) by reflexivity.
  assert (Hc' : cache st' = Some tt) by reflexivity.
  destruct (credential_then_loader W st) as (_ & Hmiss & _).
  destruct (credential_then_loader W st') as (_ & _ & Hhit).
  destruct (Hmiss tt st' Hc Hl) as (t & m & _ & _ & _ & _ & Htr).
  split; [exact Hc|]. split; [exact Hl|]. split; [exact Hc'|].
  split; [exact (Hhit tt Hc') | exact Htr].
Defined.

(** C9 as first stated fails: when the model's score is 1.5 and
    [st.progress] refuses it, the page holds the result card and the error
    message together. *)
Lemma card_and_error_together :
  outcome (page (snd (main overconfident (ask apple)
                        (clear_page (boot overconfident ∅))))) =
    (false, true, false, true).
Proof. vm_compute. reflexivity. Qed.

(** A valid submission to a provider that answers like FinBERT. *)
Lemma submission_outcomes_witness :
  let W := finbert_like in
  let st := boot W ∅ in
  let sub := ask apple in
  analyze_button sub = true /\
  (let r := fst (analyze W (user_input sub) st) in
   let o := outcome (page (snd (main W sub (clear_page st)))) in
   (is_empty (strip (user_input sub)) = true /\
    o = (true, false, false, false)) \/
   (is_empty (strip (user_input sub)) = false /\
    exists e, r = Raise e /\ o = (false, false, false, true)) \/
   (is_empty (strip (user_input sub)) = false /\
    exists p, r = Ok p /\ progress_check W (score p) = None /\
              o = (false, true, true, false)) \/
   (is_empty (strip (user_input sub)) = false /\
    exists p e, r = Ok p /\ progress_check W (score p) = Some e /\
                o = (false, true, false, true))).
Proof.
  split; [reflexivity|].
  apply (submission_outcomes finbert_like (boot finbert_like ∅) (ask apple)).
  reflexivity.
Defined.

(** An empty environment and no environment file. *)
Lemma missing_token_is_passed_as_none_witness :
  let W := finbert_like in
  let st := boot W ∅ in
  load_dotenv W (environ st) !! "HUGGINGFACE_TOKEN" = None /\
  cache st = None /\
  (let st1 := snd (read_credential W st) in
   let tok := AutoTokenizer_from_pretrained W "ProsusAI/finbert" None in
   let mdl :=
    AutoModelForSequenceClassification_from_pretrained W
      "ProsusAI/finbert" None in
   hf_token st1 = None /\
   exists evs,
     trace (snd (load_sentiment_pipeline W st1)) =
       trace st1 ++
       EvTokenizer "ProsusAI/finbert" None (returned tok) :: evs /\
     (returned tok = true ->
      exists evs',
        evs = EvModel "ProsusAI/finbert" None (returned mdl) :: evs') /\
     (forall e, fst (load_sentiment_pipeline W st1) = Raise e ->
        tok = Raise e \/ mdl = Raise e \/
        exists t m, pipeline W "sentiment-analysis" m t = Raise e)).
Proof.
  split; [reflexivity|]. split; [reflexivity|].
  apply (missing_token_is_passed_as_none finbert_like (boot finbert_like ∅));
    reflexivity.
Defined.

(** ** Further properties of the script *)

Section More.

Context (W : World).
Implicit Types (st : State W) (sub : Submission) (text : str).

Lemma forallb_false_Exists {A} (p : A -> bool) (l : list A) :
  forallb p l = false <-> Exists (fun x => p x = false) l.
Proof.
  induction l as [|x l IH]; simpl.
  - split; [discriminate | intros H; inversion H].
  - destruct (p x) eqn:Hx; simpl.
    + rewrite IH. split; [intros H; right; exact H|].
      intros H. inversion H as [? ? Hp | ? ? Ht]; [congruence | exact Ht].
    + split; [intros _; left; exact Hx | reflexivity].
Qed.

Lemma forallb_true_Forall {A} (p : A -> bool) (l : list A) :
  forallb p l = true <-> Forall (fun x => p x = true) l.
Proof.
  induction l as [|x l IH]; simpl.
  - split; [constructor | reflexivity].
  - rewrite andb_true_iff, IH. split.
    + intros [Hx Hl]. constructor; assumption.
    + intros H. inversion H. split; assumption.
Qed.

(** Line 89 lets a click through exactly when the text holds a character
    that is not whitespace. *)
Lemma valid_iff sub :
  valid sub = true <->
  analyze_button sub = true /\
  Exists (fun c => isspace c = false) (user_input sub).
Proof.
  unfold valid. rewrite andb_true_iff, <- forallb_false_Exists.
  pose proof (strip_empty_iff (user_input sub)) as Hs.
  destruct (is_empty (strip (user_input sub)));
    destruct (forallb isspace (user_input sub)); simpl;
    intuition congruence.
Qed.

Lemma load_trace_length st :
  let st' := snd (load_sentiment_pipeline W st) in
  length (trace st) <= length (trace st') /\
  (forall e, fst (load_sentiment_pipeline W st) = Raise e ->
             length (trace st) < length (trace st')).
Proof.
  simpl. destruct (cache st) as [h|] eqn:Hc.
  - rewrite (load_hit W st h Hc). simpl. split; [lia | discriminate].
  - rewrite (load_miss W st Hc). simpl.
    destruct (AutoTokenizer_from_pretrained W _ _) as [t|e]; simpl.
    2:{ rewrite length_app. simpl. split; [lia | intros; lia]. }
    destruct (AutoModelForSequenceClassification_from_pretrained W _ _)
      as [m|e]; simpl.
    2:{ rewrite !length_app. simpl. split; [lia | intros; lia]. }
    destruct (pipeline W _ m t) as [h|e]; simpl;
      rewrite !length_app; simpl; split; try lia; intros; lia.
Qed.

(** Lines 94-98 always reach the provider. *)
Lemma analyze_trace_grows text st :
  length (trace st) < length (trace (snd (analyze W text st))).
Proof.
  rewrite analyze_eq.
  pose proof (load_trace_length st) as [Hle Hlt]. simpl in Hle, Hlt.
  destruct (load_sentiment_pipeline W st) as [[h|e] st1]; simpl in *.
  - destruct (call W h text); simpl; rewrite length_app; simpl; lia.
  - apply (Hlt e). reflexivity.
Qed.

(** X1.  A run of [main] calls the provider (to load or to classify)
    exactly when the button was clicked and the text holds at least one
    character that is not whitespace; it shows the warning exactly when the
    button was clicked and every character of the text is whitespace. *)
Theorem provider_is_called_iff_clicked_on_visible_text st sub :
  (length (trace st) < length (trace (snd (main W sub st))) <->
   analyze_button sub = true /\
   Exists (fun c => isspace c = false) (user_input sub)) /\
  (existsb is_warning (page (snd (main W sub (clear_page st)))) = true <->
   analyze_button sub = true /\
   Forall (fun c => isspace c = true) (user_input sub)).
Proof.
  split.
  - rewrite <- valid_iff, main_spec. simpl.
    destruct (valid sub).
    + split; [reflexivity|]. intros _. apply analyze_trace_grows.
    + split; [lia | discriminate].
  - rewrite main_page. unfold submitted_elements.
    rewrite <- forallb_true_Forall, <- strip_empty_iff.
    destruct (analyze_button sub); [|simpl; intuition discriminate].
    destruct (is_empty (strip (user_input sub))).
    + simpl. tauto.
    + assert (Hd : existsb is_warning
                (drawn_for W (fst (analyze W (user_input sub) st))) = false).
      { destruct (fst (analyze W (user_input sub) st)) as [p|e]; simpl;
          [destruct (progress_check W (score p))|]; reflexivity. }
      simpl. rewrite existsb_app, Hd. simpl. intuition discriminate.
Qed.

(** Line 88 on a run without a click. *)
Lemma no_click_draws_only_the_frame st sub :
  analyze_button sub = false ->
  main W sub st = (Ok tt, with_page (page st ++ header ++ sidebar) st).
Proof.
  intros Hb. rewrite main_spec. unfold valid, submitted_elements.
  rewrite Hb. reflexivity.
Qed.

(** X2.  A run of the script without a click on the button (the page is
    opened, or text is typed) draws the page configuration, the style, the
    header and the sidebar and nothing else; it reads the credential and
    makes no call to the provider, so the model is not loaded and the
    handle store stays as it was. *)
Theorem page_load_does_not_load_the_model st sub :
  analyze_button sub = false ->
  let v := load_dotenv W (environ st) !! "HUGGINGFACE_TOKEN" in
  let st' := rerun W st sub in
  page st' =
    [EPageConfig "Market Mind | Financial Sentiment Analysis" "centered";
     EStyle] ++ header ++ sidebar /\
  trace st' = trace st ++ [EvLoadDotenv; EvGetenv "HUGGINGFACE_TOKEN" v] /\
  cache st' = cache st /\
  hf_token st' = v /\
  environ st' = load_dotenv W (environ st).
Proof.
  intros Hb v st'. subst v st'. unfold rerun.
  rewrite script_spec, read_credential_eq.
  unfold valid, submitted_elements. rewrite Hb. simpl.
  rewrite <- app_assoc. repeat split.
Qed.

Lemma load_ok_stores st (h : Handle W) :
  fst (load_sentiment_pipeline W st) = Ok h ->
  cache (snd (load_sentiment_pipeline W st)) = Some h.
Proof.
  intros Hl. pose proof (load_effect W st) as (_ & _ & evs & _ & _ & Hm).
  simpl in Hm. rewrite Hl in Hm.
  destruct (cache st) as [h0|]; [|tauto].
  destruct Hm as ([= ->] & Hc & _). exact Hc.
Qed.

(** X3.  When the pipeline returns the empty list for a valid submission,
    taking entry 0 raises IndexError inside the [try]: the page shows the
    error message with the text [list index out of range] and neither a
    heading, a card nor a progress bar, and the pipeline was called once. *)
Theorem empty_output_is_reported st sub (h : Handle W) :
  valid sub = true ->
  fst (load_sentiment_pipeline W st) = Ok h ->
  call W h (user_input sub) = Ok [] ->
  page (snd (main W sub st)) =
    page st ++ header ++
    [ESpinner "Analyzing market sentiment...";
     EError "An error occurred during analysis: list index out of range"] ++
    sidebar /\
  trace (snd (main W sub st)) =
    trace (snd (load_sentiment_pipeline W st)) ++
    [EvCall (user_input sub) true].
Proof.
  intros Hv Hl Hc.
  assert (Ha : analyze W (user_input sub) st =
    (Raise (mkExc "IndexError" "list index out of range"),
     log (EvCall (user_input sub) true)
       (snd (load_sentiment_pipeline W st)))).
  { rewrite analyze_eq.
    destruct (load_sentiment_pipeline W st) as [r st1]. simpl in *.
    subst r. rewrite Hc. reflexivity. }
  rewrite main_spec, Ha, Hv. unfold submitted_elements.
  unfold valid in Hv. apply andb_true_iff in Hv as [Hb He].
  apply negb_true_iff in He. rewrite Hb, He. split; reflexivity.
Qed.

Lemma analyze_cache text st :
  cache (snd (analyze W text st)) =
  cache (snd (load_sentiment_pipeline W st)).
Proof.
  rewrite analyze_eq.
  destruct (load_sentiment_pipeline W st) as [[h|e] st1]; [|reflexivity].
  destruct (call W h text); reflexivity.
Qed.

(** X4.  Once the loader has returned a handle on a valid submission, the
    handle is stored whatever happens next in that run (the pipeline call
    or the drawing may raise), and every later run keeps it and makes no
    call that loads or builds again. *)
Theorem loaded_handle_survives_failure st sub (h : Handle W) :
  valid sub = true ->
  fst (load_sentiment_pipeline W st) = Ok h ->
  let st' := snd (main W sub st) in
  cache st' = Some h /\
  forall subs,
    cache (session W st' subs) = Some h /\
    load_calls (trace (session W st' subs)) = load_calls (trace st').
Proof.
  intros Hv Hl st'.
  assert (Hc : cache st' = Some h).
  { subst st'. rewrite main_spec, Hv. simpl.
    rewrite analyze_cache. apply load_ok_stores, Hl. }
  split; [exact Hc|]. intros subs. split.
  - apply session_keeps, Hc.
  - apply (session_hit W subs st' h Hc).
Qed.

Lemma count_events_app (p : Event -> bool) (tr evs : list Event) :
  count_events p (tr ++ evs) = count_events p tr + count_events p evs.
Proof.
  unfold count_events. rewrite List.filter_app, length_app. reflexivity.
Qed.

(** What the loader adds to the log. *)
Lemma load_log st :
  exists evs,
    trace (snd (load_sentiment_pipeline W st)) = trace st ++ evs /\
    inferences evs = 0 /\ getenvs evs = 0 /\
    (cache st = None -> 0 < load_calls evs).
Proof.
  destruct (cache st) as [h|] eqn:Hc.
  - rewrite (load_hit W st h Hc). exists []. simpl.
    rewrite app_nil_r. repeat split. discriminate.
  - rewrite (load_miss W st Hc). simpl.
    destruct (AutoTokenizer_from_pretrained W _ _) as [t|e]; simpl.
    2:{ eexists. split; [reflexivity|]. repeat split. intros _.
        unfold load_calls. simpl. lia. }
    destruct (AutoModelForSequenceClassification_from_pretrained W _ _)
      as [m|e]; simpl.
    2:{ eexists. split; [rewrite <- app_assoc; reflexivity|].
        repeat split. intros _. unfold load_calls. simpl. lia. }
    destruct (pipeline W _ m t) as [h|e]; simpl;
      (eexists; split; [rewrite <- !app_assoc; reflexivity|];
       repeat split; intros _; unfold load_calls; simpl; lia).
Qed.

(** What lines 94-98 add to the log. *)
Lemma analyze_log text st :
  exists evs,
    trace (snd (analyze W text st)) = trace st ++ evs /\
    inferences evs <= 1 /\ getenvs evs = 0 /\
    (cache st = None -> 0 < load_calls evs) /\
    (forall e, fst (load_sentiment_pipeline W st) = Raise e ->
               inferences evs = 0).
Proof.
  rewrite analyze_eq.
  destruct (load_log st) as (evs & Htr & Hi & Hg & Hl).
  destruct (load_sentiment_pipeline W st) as [[h|e] st1]; simpl in *.
  - assert (H : forall ok,
      exists evs',
        trace (log (EvCall text ok) st1) = trace st ++ evs' /\
        inferences evs' <= 1 /\ getenvs evs' = 0 /\
        (cache st = None -> 0 < load_calls evs') /\
        (forall e : Exc, @Ok (Handle W) h = Raise e -> inferences evs' = 0)).
    { intros ok. exists (evs ++ [EvCall text ok]). simpl.
      rewrite Htr, <- app_assoc. split; [reflexivity|].
      unfold inferences, getenvs in *.
      rewrite !count_events_app, load_calls_app, Hi, Hg.
      change (count_events is_call [EvCall text ok]) with 1.
      change (count_events is_getenv [EvCall text ok]) with 0.
      change (load_calls [EvCall text ok]) with 0.
      split; [lia|]. split; [lia|]. split; [|discriminate].
      intros Hc. specialize (Hl Hc). lia. }
    destruct (call W h text); apply H.
  - exists evs. repeat split; try assumption; try lia.
Qed.

(** What one run of the script adds to the log. *)
Lemma rerun_log st sub :
  exists evs,
    trace (rerun W st sub) = trace st ++ evs /\
    getenvs evs = 1 /\
    inferences evs <= (if valid sub then 1 else 0) /\
    (valid sub = true -> cache st = None -> 0 < load_calls evs).
Proof.
  unfold rerun. rewrite script_spec, read_credential_eq. simpl.
  set (st1 := set_hf_token _ _).
  assert (Ht1 : trace st1 =
    trace st ++
    [EvLoadDotenv;
     EvGetenv "HUGGINGFACE_TOKEN"
       (load_dotenv W (environ st) !! "HUGGINGFACE_TOKEN")]).
  { subst st1. simpl. rewrite <- app_assoc. reflexivity. }
  assert (Hc1 : cache st1 = cache st) by reflexivity.
  clearbody st1.
  set (read := [EvLoadDotenv; EvGetenv _ _]) in Ht1.
  assert (Hr : getenvs read = 1 /\ inferences read = 0 /\
               load_calls read = 0) by (repeat split).
  destruct Hr as (Hrg & Hri & Hrl). clearbody read.
  destruct (valid sub).
  - destruct (analyze_log (user_input sub) st1)
      as (evs & Htr & Hi & Hg & Hl & _).
    exists (read ++ evs). rewrite Htr, Ht1, <- app_assoc.
    split; [reflexivity|].
    unfold inferences, getenvs in *.
    rewrite !count_events_app, load_calls_app, Hg, Hrg, Hri, Hrl.
    split; [lia|]. split; [lia|].
    intros _ Hc. rewrite <- Hc1 in Hc. specialize (Hl Hc). lia.
  - exists read. split; [exact Ht1|]. split; [exact Hrg|].
    split; [lia | discriminate].
Qed.

(** X5.  When the loader raises on a valid submission, nothing is stored
    and the pipeline is not called: the page shows the error message, and
    the next valid submission runs the loader's body again. *)
Theorem failed_load_is_retried st sub (e : Exc) :
  valid sub = true ->
  fst (load_sentiment_pipeline W st) = Raise e ->
  let st' := snd (main W sub st) in
  cache st' = None /\
  page st' =
    page st ++ header ++
    [ESpinner "Analyzing market sentiment...";
     EError ("An error occurred during analysis: " +:+ exc_str e)] ++
    sidebar /\
  inferences (trace st') = inferences (trace st) /\
  forall sub',
    valid sub' = true ->
    load_calls (trace st') < load_calls (trace (rerun W st' sub')).
Proof.
  intros Hv Hl st'.
  assert (Ha : fst (analyze W (user_input sub) st) = Raise e).
  { rewrite analyze_eq.
    destruct (load_sentiment_pipeline W st) as [r st1]. simpl in Hl.
    subst r. reflexivity. }
  assert (Hc : cache st' = None).
  { subst st'. rewrite main_spec, Hv. simpl. rewrite analyze_cache.
    pose proof (load_effect W st) as (_ & _ & evs & _ & _ & Hm).
    simpl in Hm. rewrite Hl in Hm.
    destruct (cache st) as [h0|]; [|tauto].
    destruct Hm as (Hh & _). discriminate Hh. }
  split; [exact Hc|]. split; [|split].
  - subst st'. rewrite main_spec, Ha. unfold submitted_elements.
    unfold valid in Hv. apply andb_true_iff in Hv as [Hb He].
    apply negb_true_iff in He. rewrite Hb, He. reflexivity.
  - subst st'. rewrite main_spec, Hv. simpl.
    destruct (analyze_log (user_input sub) st)
      as (evs & Htr & _ & _ & _ & Hi).
    rewrite Htr. unfold inferences in *. rewrite count_events_app.
    rewrite (Hi e Hl). lia.
  - intros sub' Hv'.
    destruct (rerun_log st' sub') as (evs & Htr & _ & _ & Hld).
    rewrite Htr, load_calls_app. specialize (Hld Hv' Hc). lia.
Qed.

(** X6.  Over any sequence of runs the environment variable is read once
    per run, and the pipeline is called at most once per valid
    submission. *)
Theorem one_read_and_at_most_one_call_per_run st
    (subs : list Submission) :
  getenvs (trace (session W st subs)) = getenvs (trace st) + length subs /\
  inferences (trace (session W st subs)) <=
    inferences (trace st) + length (List.filter valid subs).
Proof.
  revert st. induction subs as [|sub subs IH]; intros st; simpl.
  - split; lia.
  - destruct (IH (rerun W st sub)) as [Hg Hi].
    destruct (rerun_log st sub) as (evs & Htr & Hg1 & Hi1 & _).
    change (fold_left (rerun W) subs (rerun W st sub))
      with (session W (rerun W st sub) subs).
    rewrite Htr in Hg, Hi. unfold getenvs, inferences in *.
    rewrite count_events_app in Hg, Hi.
    destruct (valid sub); simpl; split; lia.
Qed.

(** X7.  On a valid submission with an empty store, the token that the
    loader passes is the one this run has just read from the environment
    that [load_dotenv] left, whatever [hf_token] held before the run: the
    tokenizer is requested with it right after the read, and the model
    with the same token when the tokenizer has loaded. *)
Theorem fresh_credential_reaches_the_loader st sub :
  valid sub = true ->
  cache st = None ->
  let v := load_dotenv W (environ st) !! "HUGGINGFACE_TOKEN" in
  exists ok evs,
    trace (snd (script W sub st)) =
      trace st ++
      [EvLoadDotenv; EvGetenv "HUGGINGFACE_TOKEN" v;
       EvTokenizer "ProsusAI/finbert" v ok] ++ evs /\
    (ok = true ->
     exists ok' evs', evs = EvModel "ProsusAI/finbert" v ok' :: evs').
Proof.
  intros Hv Hc v. rewrite script_spec, read_credential_eq, Hv. simpl.
  set (st1 := set_hf_token _ _).
  assert (Ht1 : trace st1 =
    trace st ++ [EvLoadDotenv; EvGetenv "HUGGINGFACE_TOKEN" v]).
  { subst st1. simpl. rewrite <- app_assoc. reflexivity. }
  assert (Hc1 : cache st1 = None) by exact Hc.
  assert (Hk1 : hf_token st1 = v) by reflexivity.
  clearbody st1.
  rewrite analyze_eq, (load_miss W st1 Hc1), Hk1. simpl.
  destruct (AutoTokenizer_from_pretrained W _ v) as [t|e]; simpl.
  2:{ exists false, []. rewrite Ht1, <- app_assoc.
      split; [reflexivity | discriminate]. }
  destruct (AutoModelForSequenceClassification_from_pretrained W _ v)
    as [m|e]; simpl.
  2:{ exists true. eexists. rewrite Ht1, <- !app_assoc. simpl.
      split; [reflexivity|]. intros _. eexists. eexists. reflexivity. }
  destruct (pipeline W _ m t) as [h|e]; simpl.
  2:{ exists true. eexists. rewrite Ht1, <- !app_assoc. simpl.
      split; [reflexivity|]. intros _. eexists. eexists. reflexivity. }
  destruct (call W h (user_input sub)); simpl;
    (exists true; eexists; rewrite Ht1, <- !app_assoc; simpl;
     split; [reflexivity|]; intros _; eexists; eexists; reflexivity).
Qed.

(** X8.  Once a handle is stored, the environment and [hf_token] no longer
    matter: a run draws the same page and keeps the same handle whatever
    they are changed to. *)
Theorem stored_handle_ignores_the_credential st sub (h : Handle W)
    (env : gmap string string) (tok : option string) :
  cache st = Some h ->
  page (rerun W (set_environ env (set_hf_token tok st)) sub) =
    page (rerun W st sub) /\
  cache (rerun W (set_environ env (set_hf_token tok st)) sub) = Some h.
Proof.
  intros Hc. split.
  - unfold rerun. rewrite !script_spec, !read_credential_eq. simpl.
    do 8 f_equal.
    unfold submitted_elements.
    destruct (analyze_button sub); [|reflexivity].
    destruct (is_empty (strip (user_input sub))); [reflexivity|].
    do 2 f_equal.
    rewrite !(analyze_hit W (user_input sub) _ h); [reflexivity | |];
      exact Hc.
  - apply rerun_keeps. exact Hc.
Qed.

(** X10.  The loader stops at the first call that raises: when the
    tokenizer cannot be loaded the model is not requested, and when the
    model cannot be loaded [pipeline(...)] is not called; in both cases the
    run shows that exception in the error message. *)
Theorem load_stops_at_the_first_failure st sub (e : Exc) :
  valid sub = true ->
  cache st = None ->
  let name := "ProsusAI/finbert" in
  let tok := hf_token st in
  let shown :=
    page st ++ header ++
    [ESpinner "Analyzing market sentiment...";
     EError ("An error occurred during analysis: " +:+ exc_str e)] ++
    sidebar in
  (AutoTokenizer_from_pretrained W name tok = Raise e ->
   trace (snd (main W sub st)) = trace st ++ [EvTokenizer name tok false] /\
   page (snd (main W sub st)) = shown) /\
  (forall t,
     AutoTokenizer_from_pretrained W name tok = Ok t ->
     AutoModelForSequenceClassification_from_pretrained W name tok
       = Raise e ->
     trace (snd (main W sub st)) =
       trace st ++ [EvTokenizer name tok true; EvModel name tok false] /\
     page (snd (main W sub st)) = shown).
Proof.
  intros Hv Hc name tok shown. subst name tok shown.
  rewrite main_spec, Hv. unfold submitted_elements.
  unfold valid in Hv. apply andb_true_iff in Hv as [Hb He].
  apply negb_true_iff in He. rewrite Hb, He.
  rewrite analyze_eq, (load_miss W st Hc). simpl.
  split.
  - intros ->. simpl. split; reflexivity.
  - intros t -> ->. simpl. rewrite <- app_assoc. split; reflexivity.
Qed.

End More.

(** ** The colour of the label *)



(** ** The further properties at sample inputs *)

(** A text typed and not submitted. *)
Lemma page_load_does_not_load_the_model_witness :
  let W := finbert_like in
  let st := boot W ∅ in
  let sub := typed apple in
  analyze_button sub = false /\
  (let v := load_dotenv W (environ st) !! "HUGGINGFACE_TOKEN" in
   let st' := rerun W st sub in
   page st' =
     [EPageConfig "Market Mind | Financial Sentiment Analysis" "centered";
      EStyle] ++ header ++ sidebar /\
   trace st' = trace st ++ [EvLoadDotenv; EvGetenv "HUGGINGFACE_TOKEN" v] /\
   cache st' = cache st /\
   hf_token st' = v /\
   environ st' = load_dotenv W (environ st)).
Proof.
  split; [reflexivity|].
  apply (page_load_does_not_load_the_model finbert_like
           (boot finbert_like ∅) (typed apple)).
  reflexivity.
Defined.

(** A pipeline that returns no entry. *)
Lemma empty_output_is_reported_witness :
  let W := silent in
  let st := boot W ∅ in
  let sub := ask apple in
  valid sub = true /\
  fst (load_sentiment_pipeline W st) = Ok tt /\
  call W tt (user_input sub) = Ok [] /\
  (page (snd (main W sub st)) =
     page st ++ header ++
     [ESpinner "Analyzing market sentiment...";
      EError "An error occurred during analysis: list index out of range"]
     ++ sidebar /\
   trace (snd (main W sub st)) =
     trace (snd (load_sentiment_pipeline W st)) ++
     [EvCall (user_input sub) true]).
Proof.
  split; [reflexivity|]. split; [reflexivity|]. split; [reflexivity|].
  apply (empty_output_is_reported silent (boot silent ∅) (ask apple) tt);
    reflexivity.
Defined.

(** The model loads and the pipeline call raises. *)
Lemma loaded_handle_survives_failure_witness :
  let W := faulty in
  let st := boot W ∅ in
  let sub := ask apple in
  valid sub = true /\
  fst (load_sentiment_pipeline W st) = Ok tt /\
  (let st' := snd (main W sub st) in
   cache st' = Some tt /\
   forall subs,
     cache (session W st' subs) = Some tt /\
     load_calls (trace (session W st' subs)) = load_calls (trace st')).
Proof.
  split; [reflexivity|]. split; [reflexivity|].
  apply (loaded_handle_survives_failure faulty (boot faulty ∅)
           (ask apple) tt); reflexivity.
Defined.

(** The model hub cannot be reached. *)
Lemma failed_load_is_retried_witness :
  let W := offline in
  let st := boot W ∅ in
  let sub := ask apple in
  let e := mkExc "OSError" "cannot reach the model hub" in
  valid sub = true /\
  fst (load_sentiment_pipeline W st) = Raise e /\
  (let st' := snd (main W sub st) in
   cache st' = None /\
   page st' =
     page st ++ header ++
     [ESpinner "Analyzing market sentiment...";
      EError ("An error occurred during analysis: " +:+ exc_str e)] ++
     sidebar /\
   inferences (trace st') = inferences (trace st) /\
   forall sub',
     valid sub' = true ->
     load_calls (trace st') < load_calls (trace (rerun W st' sub'))).
Proof.
  split; [reflexivity|]. split; [reflexivity|].
  apply (failed_load_is_retried offline (boot offline ∅) (ask apple)
           (mkExc "OSError" "cannot reach the model hub")); reflexivity.
Defined.

(** The token comes from the environment file only. *)
Lemma fresh_credential_reaches_the_loader_witness :
  let W := with_env_file in
  let st := boot W ∅ in
  let sub := ask apple in
  valid sub = true /\
  cache st = None /\
  (let v := load_dotenv W (environ st) !! "HUGGINGFACE_TOKEN" in
   v = Some "hf_sample" /\
   exists ok evs,
     trace (snd (script W sub st)) =
       trace st ++
       [EvLoadDotenv; EvGetenv "HUGGINGFACE_TOKEN" v;
        EvTokenizer "ProsusAI/finbert" v ok] ++ evs /\
     (ok = true ->
      exists ok' evs', evs = EvModel "ProsusAI/finbert" v ok' :: evs')).
Proof.
  split; [reflexivity|]. split; [reflexivity|]. split; [reflexivity|].
  apply (fresh_credential_reaches_the_loader with_env_file
           (boot with_env_file ∅) (ask apple)); reflexivity.
Defined.

(** The token is changed after the first valid run. *)
Lemma stored_handle_ignores_the_credential_witness :
  let W := finbert_like in
  let st := session W (boot W ∅) [ask apple] in
  let sub := ask apple in
  let env : gmap string string := {[ "HUGGINGFACE_TOKEN" := "hf_other" ]} in
  let tok := Some "hf_other" in
  cache st = Some tt /\
  (page (rerun W (set_environ env (set_hf_token tok st)) sub) =
     page (rerun W st sub) /\
   cache (rerun W (set_environ env (set_hf_token tok st)) sub) = Some tt).
Proof.
  split; [reflexivity|].
  apply (stored_handle_ignores_the_credential finbert_like
           (session finbert_like (boot finbert_like ∅) [ask apple])
           (ask apple) tt {[ "HUGGINGFACE_TOKEN" := "hf_other" ]}
           (Some "hf_other")).
  reflexivity.
Defined.


(** The tokenizer cannot be loaded; the tokenizer loads and the model does
    not. *)
Lemma load_stops_at_the_first_failure_witness :
  let W := model_missing in
  let st := boot W ∅ in
  let sub := ask apple in
  let e := mkExc "OSError" "no file named pytorch_model.bin" in
  valid sub = true /\
  cache st = None /\
  AutoTokenizer_from_pretrained W "ProsusAI/finbert" (hf_token st) = Ok tt /\
  AutoModelForSequenceClassification_from_pretrained W
    "ProsusAI/finbert" (hf_token st) = Raise e /\
  trace (snd (main W sub st)) =
    trace st ++
    [EvTokenizer "ProsusAI/finbert" (hf_token st) true;
     EvModel "ProsusAI/finbert" (hf_token st) false] /\
  page (snd (main W sub st)) =
    page st ++ header ++
    [ESpinner "Analyzing market sentiment...";
     EError ("An error occurred during analysis: " +:+ exc_str e)] ++
    sidebar.
Proof.
  intros W st sub e.
  assert (Hv : valid sub = true) by reflexivity.
  assert (Hc : cache st = None) by reflexivity.
  assert (Ht : AutoTokenizer_from_pretrained W "ProsusAI/finbert"
                 (hf_token st) = Ok tt) by reflexivity.
  assert (Hm : AutoModelForSequenceClassification_from_pretrained W
                 "ProsusAI/finbert" (hf_token st) = Raise e)
    by reflexivity.
  split; [exact Hv|]. split; [exact Hc|]. split; [exact Ht|].
  split; [exact Hm|].
  exact (proj2 (load_stops_at_the_first_failure W st sub e Hv Hc) tt Ht Hm).
Defined.
